(** * Request validation and game-session protocol of the chess server

    The first half of this development embeds the marshmallow schemas of
    [server/schemas/game.py]: every [@validates] / [@validates_schema]
    method becomes a function into a small validation monad, the document
    store becomes a pair of finite maps and the identity provider a finite
    set of user ids.  The second half models the game-session state machine
    and the controller registry, whose Python sources are not part of the
    tree, from the written specification. *)

From Stdlib Require Import QArith Lqa.
From stdpp Require Import base decidable option list gmap strings.

Local Open Scope string_scope.

(** ** Shared data *)

(** Sentinel player ids, as in the module header of [game.py]. *)
Definition OPEN_SLOT : string := "OPEN".
Definition AI : string := "AI".

(** The two keys ['w'] and ['b'] of every per-side dictionary. *)
Inductive Side : Type := SideW | SideB.

#[global] Instance Side_eq_dec : EqDecision Side.
Proof. solve_decision. Defined.

Definition opposite (s : Side) : Side :=
  match s with SideW => SideB | SideB => SideW end.

(** A dictionary with exactly the keys ['w'] and ['b']. *)
Record BySide (A : Type) : Type := mkBySide { on_w : A; on_b : A }.
Arguments mkBySide {A} _ _.
Arguments on_w {A} _.
Arguments on_b {A} _.

(** [d[s]] *)
Definition at_side {A : Type} (d : BySide A) (s : Side) : A :=
  match s with SideW => on_w d | SideB => on_b d end.

(** [d.values()] *)
Definition values {A : Type} (d : BySide A) : list A := [on_w d; on_b d].

Record Offer : Type := mkOffer { made : bool; accepted : bool }.

(** The fields of a stored game document that the schemas and the tests
    read ([Game.from_dict] rebuilds the object from exactly this record). *)
Record Game : Type := mkGame {
  players : BySide string;
  free_slots : nat;
  resigned : BySide bool;
  draw_offers : BySide Offer;
  in_progress : bool;
  turn : Side;
  ply_count : nat;
  history : list string;
  fen : string
}.

(** A controller document; [last_seen] may be missing from the dictionary,
    [game_id] may be [None]. Timestamps are seconds as exact rationals. *)
Record Controller : Type := mkController {
  board_version : string;
  last_seen : option Q;
  assigned_game : option string
}.

(** [controller_dict.get('last_seen', 0)] *)
Definition last_seen_or_0 (c : Controller) : Q := default 0%Q (last_seen c).

(** The document store: the collections ["games"] and ["controllers"]. *)
Record DB : Type := mkDB {
  games : gmap string Game;
  controllers : gmap string Controller
}.

(** The identity provider: the ids for which [get_user] answers. *)
Abbreviation Auth := (gset string).

(** ** The validation monad *)

(** One constructor per message raised in [game.py]. *)
Inductive ValidationError : Type :=
| GameDoesntExist        (* "Game ... doesn't exist!" *)
| UserDoesntExist        (* "User ... doesn't exist!" *)
| UserNotInGame          (* "User ... is not a player in this game." *)
| NotPlayersTurn         (* "User ... cannot move when it is not their turn." *)
| GameNotInProgress      (* "Game ... is over." *)
| InvalidMove            (* "Invalid move ... in current context." *)
| NegativeTime           (* "Cannot have negative time" *)
| TwoAISlots             (* "Cannot create a game with two AI slots." *)
| ControllerNeverRegistered  (* "Controller never registered" *)
| ControllerNotActive.       (* "Controller not active" *)

#[global] Instance ValidationError_eq_dec : EqDecision ValidationError.
Proof. solve_decision. Defined.

(** A validator either returns or raises [ValidationError]. *)
Inductive V (A : Type) : Type :=
| Valid (a : A)
| Invalid (e : ValidationError).
Arguments Valid {A} _.
Arguments Invalid {A} _.

#[global] Instance V_ret : MRet V := fun _ a => Valid a.
#[global] Instance V_bind : MBind V := fun _ _ f m =>
  match m with Valid a => f a | Invalid e => Invalid e end.

(** [if not cond: raise ValidationError(e)] *)
Definition require (cond : bool) (e : ValidationError) : V unit :=
  if cond then Valid () else Invalid e.

Definition passes {A : Type} (m : V A) : bool :=
  match m with Valid _ => true | Invalid _ => false end.

(** [assert_player_exists]: the identity provider is asked for the id and
    its [AuthError] is turned into a validation error. *)
Definition assert_player_exists (auth : Auth) (player : string) : V unit :=
  require (bool_decide (player ∈ auth)) UserDoesntExist.

(** [db.collection("games").document(id).get()], then the [exists] test
    and [Game.from_dict]. *)
Definition load_game (db : DB) (game_id : string) : V Game :=
  match games db !! game_id with
  | Some doc => Valid doc
  | None => Invalid GameDoesntExist
  end.

(** ** [MakeMoveInput] *)

Module MakeMoveInput.

Record data : Type := mkData {
  user_id : string;
  move : string;
  game_id : string
}.

Section WithEngine.

(** [Game.move] lives in [server/game.py]: it either mutates the game
    (the new value is returned here) or raises [ValueError] ([None]). *)
Variable game_move : Game -> string -> option Game.

(** [validate_move]. The result is the scratch game object the validator
    built and moved; nothing is written back to the store. *)
Definition validate_move (db : DB) (auth : Auth) (d : data) : V Game :=
  game ← load_game db (game_id d);
  (if bool_decide (user_id d = OPEN_SLOT) || bool_decide (user_id d = AI)
   then Valid ()
   else assert_player_exists auth (user_id d));;
  require (bool_decide (user_id d ∈ values (players game))) UserNotInGame;;
  require (bool_decide (user_id d = at_side (players game) (turn game)))
          NotPlayersTurn;;
  require (in_progress game) GameNotInProgress;;
  match game_move game (move d) with
  | Some game' => Valid game'
  | None => Invalid InvalidMove
  end.

End WithEngine.

End MakeMoveInput.

(** ** [RespondOfferInput] *)

Module RespondOfferInput.

Record data : Type := mkData {
  user_id : string;
  game_id : string;
  response : bool
}.

(** [validate_offer_response] *)
Definition validate_offer_response (db : DB) (auth : Auth) (d : data) : V unit :=
  game ← load_game db (game_id d);
  assert_player_exists auth (user_id d);;
  require (bool_decide (user_id d ∈ values (players game))) UserNotInGame.

End RespondOfferInput.

(** ** [CreateGameInput] *)

Module CreateGameInput.

(** The request after field deserialisation: every [required=True] field
    is present, [public] is optional. *)
Record request : Type := mkRequest {
  creator_id : string;
  player1_id : string;
  player2_id : string;
  time_per_player : Z;
  board_id : string;
  public : option bool
}.

(** The [data] dictionary handed to a [@validates_schema] method: a field
    whose own validator raised is no longer among its keys. *)
Record data : Type := mkData {
  d_creator_id : option string;
  d_player1_id : option string;
  d_player2_id : option string;
  d_time_per_player : option Z;
  d_board_id : option string;
  d_public : option bool
}.

Section WithTimeout.

(** [TIMEOUT] is imported from [server/schemas/controller.py]. *)
Variable TIMEOUT : Q.

(** [validate_time] *)
Definition validate_time (value : Z) : V unit :=
  if bool_decide (value < 0)%Z then Invalid NegativeTime else Valid ().

(** [player_valid] *)
Definition player_valid (auth : Auth) (value : string) : V unit :=
  if bool_decide (value = OPEN_SLOT) || bool_decide (value = AI)
  then Valid ()
  else assert_player_exists auth value.

(** [two_ai_players], with its guard on the presence of both keys. *)
Definition two_ai_players (d : data) : V unit :=
  match d_player1_id d, d_player2_id d with
  | Some p1, Some p2 =>
      if bool_decide (p1 = "AI") && bool_decide (p2 = "AI")
      then Invalid TwoAISlots
      else Valid ()
  | _, _ => Valid ()
  end.

(** [creator_exists] *)
Definition creator_exists (auth : Auth) (value : string) : V unit :=
  assert_player_exists auth value.

(** [board_exists_and_is_active]; [now] is the value of [time.time()]. *)
Definition board_exists_and_is_active (db : DB) (now : Q) (value : string) : V unit :=
  match controllers db !! value with
  | None => Invalid ControllerNeverRegistered
  | Some controller_dict =>
      if Qle_bool TIMEOUT (now - last_seen_or_0 controller_dict)
      then Invalid ControllerNotActive
      else Valid ()
  end.

(** *** Running the schema *)

Definition errors_of (v : V unit) : list ValidationError :=
  match v with Valid _ => [] | Invalid e => [e] end.

(** A field stays in [data] only when its validator returned. *)
Definition keep {A : Type} (v : V unit) (x : A) : option A :=
  if passes v then Some x else None.

Definition validated_data (db : DB) (auth : Auth) (now : Q) (r : request) : data :=
  {| d_creator_id := keep (creator_exists auth (creator_id r)) (creator_id r);
     d_player1_id := keep (player_valid auth (player1_id r)) (player1_id r);
     d_player2_id := Some (player2_id r);
     d_time_per_player := keep (validate_time (time_per_player r)) (time_per_player r);
     d_board_id := keep (board_exists_and_is_active db now (board_id r)) (board_id r);
     d_public := public r |}.

(** All messages collected by a load of the schema: the field validators,
    then the schema-level validator on what is left of the data. Of the two
    [@validates] decorators stacked on [player_valid] the outer one
    overwrites the field name set by the inner one, so the method runs for
    [player1_id] only and [player2_id] has no validator. The game is
    created only when this list is empty. *)
Definition validate (db : DB) (auth : Auth) (now : Q) (r : request) : list ValidationError :=
  errors_of (creator_exists auth (creator_id r)) ++
  errors_of (player_valid auth (player1_id r)) ++
  errors_of (validate_time (time_per_player r)) ++
  errors_of (board_exists_and_is_active db now (board_id r)) ++
  errors_of (two_ai_players (validated_data db auth now r)).

End WithTimeout.

End CreateGameInput.

(** ** Predicates on requests *)

(** The user of a request got through the identity step of
    [validate_move]: a sentinel, for which the step is skipped, or an id
    that exists for the identity provider. *)
Definition identity_checked (auth : Auth) (user : string) : Prop :=
  user = OPEN_SLOT \/ user = AI \/ user ∈ auth.

(** A responder facing an offer: some side has an outstanding offer and
    the responder plays the other side. *)
Definition faces_offer (g : Game) (user : string) : Prop :=
  exists s : Side,
    made (at_side (draw_offers g) s) = true /\
    at_side (players g) (opposite s) = user.

(** ** The game session, from the specification *)

Module Session.

(** Modelled from the spec: the player slot variant of the data model;
    [server/game.py], which defines the [Game] class, is missing. *)
Inductive PlayerSlot : Type :=
| Open
| AISlot
| Occupied (player_id : string).

#[global] Instance PlayerSlot_eq_dec : EqDecision PlayerSlot.
Proof. solve_decision. Defined.

(** Modelled from the spec: the reason carried by a finished game, for the
    missing [Game] class. *)
Inductive Reason : Type :=
| checkmate | stalemate | draw_by_rule | draw_accepted | resignation | timeout.

(** Modelled from the spec: the result carried by a finished game, for the
    missing [Game] class. *)
Inductive Result : Type :=
| white_wins | black_wins | draw | undetermined.

#[global] Instance Reason_eq_dec : EqDecision Reason.
Proof. solve_decision. Defined.

#[global] Instance Result_eq_dec : EqDecision Result.
Proof. solve_decision. Defined.

(** Modelled from the spec: the single [status] variant of a session, for
    the missing [Game] class. *)
Inductive Status : Type :=
| Waiting
| InProgress
| Over (reason : Reason) (result : Result).

#[global] Instance Status_eq_dec : EqDecision Status.
Proof. solve_decision. Defined.

(** Modelled from the spec: the error taxonomy of the session operations,
    for the missing [Game] class. *)
Inductive DomainError : Type :=
| MalformedNotation
| AmbiguousOrIllegalMove
| GameNotInProgress
| NotPlayersTurn
| UserNotInGame
| SlotNotOpen
| DrawOfferAlreadyMade
| NothingToRespondTo
| MalformedDocument.

(** Modelled from the spec: the per-move outcome tag of the move engine,
    which [server/game.py] wraps and which is missing with it. *)
Inductive Outcome : Type :=
| Normal | Check | Checkmate | Stalemate
| DrawByFiftyMove | DrawByInsufficientMaterial | DrawByRepetition.

(** Modelled from the spec: the clock manager state of the missing [Game]
    class; a configured time of zero gives the inert clock. *)
Inductive Clock : Type :=
| Untimed
| Timed (remaining : BySide Q) (increment : Q) (last_move_at : Q).

(** [d[s] = x] on a per-side dictionary. *)
Definition set_side {A : Type} (s : Side) (x : A) (d : BySide A) : BySide A :=
  match s with
  | SideW => mkBySide x (on_b d)
  | SideB => mkBySide (on_w d) x
  end.

(** Modelled from the spec: the result "win for side [s]" of the missing
    [Game] class. *)
Definition win_for (s : Side) : Result :=
  match s with SideW => white_wins | SideB => black_wins end.

Section WithEngine.

(** The position type and the move engine's [apply] are left abstract:
    an error is one of the two notation errors of the taxonomy. *)
Variable Position : Type.
Variable apply : Position -> string -> DomainError + Position * Outcome.

(** Who may move for an [AI] slot is a policy delegated to the caller. *)
Variable ai_agent : string -> bool.

(** The move on an exhausted clock fails, but no error of the taxonomy
    names a timeout: which one is returned is left open. *)
Variable timeout_error : DomainError.

(** Modelled from the spec: the session aggregate of the data model, for
    the missing [Game] class. *)
Record GameSession : Type := mkSession {
  players : BySide PlayerSlot;
  free_slots : nat;
  turn : Side;
  position : Position;
  history : list (string * Position);
  ply_count : nat;
  clock : Clock;
  draw_offers : BySide Offer;
  resigned : BySide bool;
  status : Status;
  public : bool;
  board_id : string
}.

Definition with_players (x : BySide PlayerSlot) (g : GameSession) : GameSession :=
  mkSession x (free_slots g) (turn g) (position g) (history g) (ply_count g)
            (clock g) (draw_offers g) (resigned g) (status g) (public g) (board_id g).

Definition with_free_slots (x : nat) (g : GameSession) : GameSession :=
  mkSession (players g) x (turn g) (position g) (history g) (ply_count g)
            (clock g) (draw_offers g) (resigned g) (status g) (public g) (board_id g).

Definition with_turn (x : Side) (g : GameSession) : GameSession :=
  mkSession (players g) (free_slots g) x (position g) (history g) (ply_count g)
            (clock g) (draw_offers g) (resigned g) (status g) (public g) (board_id g).

Definition with_position (x : Position) (g : GameSession) : GameSession :=
  mkSession (players g) (free_slots g) (turn g) x (history g) (ply_count g)
            (clock g) (draw_offers g) (resigned g) (status g) (public g) (board_id g).

Definition with_history (x : list (string * Position)) (g : GameSession) : GameSession :=
  mkSession (players g) (free_slots g) (turn g) (position g) x (ply_count g)
            (clock g) (draw_offers g) (resigned g) (status g) (public g) (board_id g).

Definition with_ply_count (x : nat) (g : GameSession) : GameSession :=
  mkSession (players g) (free_slots g) (turn g) (position g) (history g) x
            (clock g) (draw_offers g) (resigned g) (status g) (public g) (board_id g).

Definition with_clock (x : Clock) (g : GameSession) : GameSession :=
  mkSession (players g) (free_slots g) (turn g) (position g) (history g) (ply_count g)
            x (draw_offers g) (resigned g) (status g) (public g) (board_id g).

Definition with_draw_offers (x : BySide Offer) (g : GameSession) : GameSession :=
  mkSession (players g) (free_slots g) (turn g) (position g) (history g) (ply_count g)
            (clock g) x (resigned g) (status g) (public g) (board_id g).

Definition with_resigned (x : BySide bool) (g : GameSession) : GameSession :=
  mkSession (players g) (free_slots g) (turn g) (position g) (history g) (ply_count g)
            (clock g) (draw_offers g) x (status g) (public g) (board_id g).

Definition with_status (x : Status) (g : GameSession) : GameSession :=
  mkSession (players g) (free_slots g) (turn g) (position g) (history g) (ply_count g)
            (clock g) (draw_offers g) (resigned g) x (public g) (board_id g).

(** *** Operations as steps over the session

    An operation runs over the current session and either finishes or
    stops with a [DomainError]; in both cases the session it leaves
    behind is part of the result, so that a failure after a partial
    update would be visible. *)
Inductive Res (A : Type) : Type :=
| Done (a : A) (g : GameSession)
| Failed (e : DomainError) (g : GameSession).
Arguments Done {A} _ _.
Arguments Failed {A} _ _.

Definition Op (A : Type) : Type := GameSession -> Res A.

#[local] Instance Op_ret : MRet Op := fun _ a g => Done a g.
#[local] Instance Op_bind : MBind Op := fun _ _ f m g =>
  match m g with
  | Done a g' => f a g'
  | Failed e g' => Failed e g'
  end.

Definition get : Op GameSession := fun g => Done g g.
Definition modify (f : GameSession -> GameSession) : Op unit := fun g => Done () (f g).
Definition fail {A : Type} (e : DomainError) : Op A := fun g => Failed e g.
Definition unless (cond : bool) (e : DomainError) : Op unit :=
  if cond then mret () else fail e.

(** The session an operation leaves behind. *)
Definition session_after {A : Type} (r : Res A) : GameSession :=
  match r with Done _ g => g | Failed _ g => g end.

(** Modelled from the spec: the precondition [status == InProgress] of the
    operations of the missing [Game] class. *)
Definition in_progress (g : GameSession) : bool := bool_decide (status g = InProgress).

(** Modelled from the spec: the side on which [user_id] is one of the two
    occupied players, for the operations of the missing [Game] class. *)
Definition side_of (g : GameSession) (user_id : string) : option Side :=
  if bool_decide (on_w (players g) = Occupied user_id) then Some SideW
  else if bool_decide (on_b (players g) = Occupied user_id) then Some SideB
  else None.

(** Modelled from the spec: both sides are [AI], the configuration the
    missing [join] must not start. *)
Definition both_ai (p : BySide PlayerSlot) : bool :=
  bool_decide (on_w p = AISlot) && bool_decide (on_b p = AISlot).

(** Modelled from the spec: [join(side, player_id)] of the game session
    operations, missing with [server/game.py]. *)
Definition join (side : Side) (player_id : string) : Op unit :=
  g ← get;
  unless (bool_decide (at_side (players g) side = Open)
          && bool_decide (status g = Waiting)) SlotNotOpen;;
  modify (fun g => with_players (set_side side (Occupied player_id) (players g)) g);;
  modify (fun g => with_free_slots (free_slots g - 1) g);;
  g ← get;
  if bool_decide (free_slots g = 0) && negb (both_ai (players g))
  then modify (with_status InProgress)
  else mret ().

(** Modelled from the spec: whether [players[turn]] resolves to the mover,
    the precondition of the missing [move]. *)
Definition resolves (slot : PlayerSlot) (mover_id : string) : bool :=
  match slot with
  | Occupied p => bool_decide (p = mover_id)
  | AISlot => ai_agent mover_id
  | Open => false
  end.

(** Modelled from the spec: step 1 of the missing [move], the time of the
    side to move is already used up. *)
Definition exhausted (c : Clock) (s : Side) : bool :=
  match c with
  | Untimed => false
  | Timed remaining _ _ => Qle_bool (at_side remaining s) 0
  end.

(** Modelled from the spec: the update of the missing clock manager on a
    successful move. *)
Definition debit (now : Q) (mover : Side) (c : Clock) : Clock :=
  match c with
  | Untimed => Untimed
  | Timed remaining increment last_move_at =>
      Timed (set_side mover
               (at_side remaining mover - (now - last_move_at) + increment)%Q
               remaining)
            increment now
  end.

Definition no_offer : Offer := mkOffer false false.

(** Modelled from the spec: the status a terminal outcome leads to in
    step 3 of the missing [move]; [mover] made the move. *)
Definition terminal (o : Outcome) (mover : Side) : option Status :=
  match o with
  | Checkmate => Some (Over checkmate (win_for mover))
  | Stalemate => Some (Over stalemate draw)
  | DrawByFiftyMove | DrawByInsufficientMaterial | DrawByRepetition =>
      Some (Over draw_by_rule draw)
  | Normal | Check => None
  end.

(** Modelled from the spec: [move(mover_id, notation)] of the game session
    operations, missing with [server/game.py], with the wall-clock time of
    the call. On an exhausted clock (step 1) the move fails and the status
    goes to [Over timeout]; the submitted move is never applied. *)
Definition move (mover_id notation : string) (now : Q) : Op unit :=
  g ← get;
  unless (in_progress g) GameNotInProgress;;
  unless (resolves (at_side (players g) (turn g)) mover_id) NotPlayersTurn;;
  if exhausted (clock g) (turn g)
  then
    modify (with_status (Over timeout (win_for (opposite (turn g)))));;
    fail timeout_error
  else
    match apply (position g) notation with
    | inl e => fail e
    | inr (position', outcome) =>
        let mover := turn g in
        modify (with_position position');;
        modify (fun g => with_history (history g ++ [(notation, position')]) g);;
        modify (fun g => with_ply_count (S (ply_count g)) g);;
        modify (fun g => with_clock (debit now mover (clock g)) g);;
        modify (with_draw_offers (mkBySide no_offer no_offer));;
        modify (with_turn (opposite mover));;
        match terminal outcome mover with
        | Some st => modify (with_status st)
        | None => mret ()
        end
    end.

(** Modelled from the spec: [offerDraw(user_id)] of the game session
    operations, missing with [server/game.py]. *)
Definition offerDraw (user_id : string) : Op unit :=
  g ← get;
  unless (in_progress g) GameNotInProgress;;
  match side_of g user_id with
  | None => fail UserNotInGame
  | Some side =>
      unless (negb (made (at_side (draw_offers g) side))) DrawOfferAlreadyMade;;
      modify (fun g => with_draw_offers
                         (set_side side (mkOffer true false) (draw_offers g)) g)
  end.

(** Modelled from the spec: a side [s] with [draw_offers[s].made] that
    [user_id] does not play, the precondition of the missing
    [respondToOffer]. *)
Definition offer_directed_at (g : GameSession) (user_id : string) : option Side :=
  List.find (fun s => made (at_side (draw_offers g) s)
                      && negb (bool_decide (at_side (players g) s = Occupied user_id)))
            [SideW; SideB].

(** Modelled from the spec: [respondToOffer(user_id, accept)] of the game
    session operations, missing with [server/game.py]. *)
Definition respondToOffer (user_id : string) (accept : bool) : Op unit :=
  g ← get;
  unless (in_progress g) GameNotInProgress;;
  match side_of g user_id with
  | None => fail UserNotInGame
  | Some _ =>
      match offer_directed_at g user_id with
      | None => fail NothingToRespondTo
      | Some s =>
          if accept
          then
            modify (fun g => with_draw_offers
                     (set_side s (mkOffer (made (at_side (draw_offers g) s)) true)
                               (draw_offers g)) g);;
            modify (with_status (Over draw_accepted draw))
          else
            modify (fun g => with_draw_offers (set_side s no_offer (draw_offers g)) g)
      end
  end.

(** Modelled from the spec: [resign(user_id)] of the game session
    operations, missing with [server/game.py]. *)
Definition resign (user_id : string) : Op unit :=
  g ← get;
  unless (in_progress g) GameNotInProgress;;
  match side_of g user_id with
  | None => fail UserNotInGame
  | Some side =>
      modify (fun g => with_resigned (set_side side true (resigned g)) g);;
      modify (with_status (Over resignation (win_for (opposite side))))
  end.

(** Modelled from the spec: the five operations of the missing [Game]
    class as one request type. *)
Inductive Operation : Type :=
| Join (side : Side) (player_id : string)
| Move (mover_id notation : string) (now : Q)
| OfferDraw (user_id : string)
| RespondToOffer (user_id : string) (accept : bool)
| Resign (user_id : string).

(** Modelled from the spec: running one of the five operations of the
    missing [Game] class. *)
Definition run (o : Operation) : Op unit :=
  match o with
  | Join side player_id => join side player_id
  | Move mover_id notation now => move mover_id notation now
  | OfferDraw user_id => offerDraw user_id
  | RespondToOffer user_id accept => respondToOffer user_id accept
  | Resign user_id => resign user_id
  end.

End WithEngine.

Arguments players {Position} _.
Arguments free_slots {Position} _.
Arguments turn {Position} _.
Arguments position {Position} _.
Arguments history {Position} _.
Arguments ply_count {Position} _.
Arguments clock {Position} _.
Arguments draw_offers {Position} _.
Arguments resigned {Position} _.
Arguments status {Position} _.
Arguments with_status {Position} _ _.
Arguments public {Position} _.
Arguments board_id {Position} _.
Arguments Done {Position A} _ _.
Arguments Failed {Position A} _ _.
Arguments session_after {Position A} _.
Arguments get {Position}.
Arguments modify {Position}.
Arguments fail {Position A}.
Arguments unless {Position}.
Arguments in_progress {Position} _.
Arguments side_of {Position} _ _.
Arguments offer_directed_at {Position} _ _.
Arguments join {Position}.
Arguments move {Position}.
Arguments offerDraw {Position}.
Arguments respondToOffer {Position}.
Arguments resign {Position}.
Arguments run {Position}.

End Session.

(** ** The controller registry, from the specification *)

Module ControllerRegistry.

(** Modelled from the spec: the failure of a registration; the route
    [/controllerregister] and [server/schemas/controller.py] are missing. *)
Inductive RegisterError : Type :=
| WithinLivenessWindow.

Section WithTimeout.

Variable TIMEOUT : Q.

(** Modelled from the spec: the liveness window of the missing controller
    schema; a controller is inside it while less than [TIMEOUT] seconds have
    passed since it was last seen. *)
Definition within_window (now : Q) (c : Controller) : bool :=
  negb (Qle_bool TIMEOUT (now - last_seen_or_0 c)).

(** Modelled from the spec: registration of a controller, for the missing
    route [/controllerregister]. A fresh board id gets a record without a
    game; a known one is refused inside its liveness window and refreshed,
    game id kept, outside of it. *)
Definition register (now : Q) (board_id version : string)
    (cs : gmap string Controller) : RegisterError + gmap string Controller :=
  match cs !! board_id with
  | None => inr (<[board_id := mkController version (Some now) None]> cs)
  | Some c =>
      if within_window now c
      then inl WithinLivenessWindow
      else inr (<[board_id := mkController version (Some now) (assigned_game c)]> cs)
  end.

End WithTimeout.

End ControllerRegistry.

(** ** Concrete data for the examples *)

Module Examples.

Definition start_fen : string :=
  "rnbqkbnr/pppppppp/8/8/8/8/PPPPPPPP/RNBQKBNR w KQkq - 0 1".

(** [mock_game] of [test_respond_offer.py]: white has offered a draw. *)
Definition mock_game : Game :=
  {| players := mkBySide "some_player_1" "some_player_2";
     free_slots := 2;
     resigned := mkBySide false false;
     draw_offers := mkBySide (mkOffer true false) (mkOffer false false);
     in_progress := true;
     turn := SideW;
     ply_count := 0;
     history := [];
     fen := start_fen |}.

(** The same game once it is over. *)
Definition finished_game : Game :=
  {| players := players mock_game;
     free_slots := 0;
     resigned := mkBySide false true;
     draw_offers := mkBySide (mkOffer false false) (mkOffer false false);
     in_progress := false;
     turn := SideW;
     ply_count := 0;
     history := [];
     fen := start_fen |}.

(** A game in which white is played by the AI and is to move. *)
Definition ai_game : Game :=
  {| players := mkBySide AI "some_player_2";
     free_slots := 0;
     resigned := mkBySide false false;
     draw_offers := mkBySide (mkOffer false false) (mkOffer false false);
     in_progress := true;
     turn := SideW;
     ply_count := 0;
     history := [];
     fen := start_fen |}.

Definition kevin : Controller :=
  {| board_version := "0.0.1"; last_seen := Some 1000%Q; assigned_game := Some "some_id" |}.

Definition kevin_without_last_seen : Controller :=
  {| board_version := "0.0.1"; last_seen := None; assigned_game := None |}.

(** [set_up_mock]: three users and one stored game (two more games are
    stored next to it for the move examples). *)
Definition mock_auth : Auth := {[ "some_creator"; "some_player_1"; "some_player_2" ]}.

Definition mock_db : DB :=
  {| games := {[ "some_game" := mock_game;
                 "finished_game" := finished_game;
                 "ai_game" := ai_game ]};
     controllers := {[ "kevin" := kevin;
                       "silent_board" := kevin_without_last_seen ]} |}.

(** A stand-in for [Game.move] that knows the single opening move [e4]
    from the initial position and raises on everything else. *)
Definition only_e4 (g : Game) (san : string) : option Game :=
  if bool_decide (san = "e4") && bool_decide (fen g = start_fen)
  then Some {| players := players g;
               free_slots := free_slots g;
               resigned := resigned g;
               draw_offers := draw_offers g;
               in_progress := in_progress g;
               turn := opposite (turn g);
               ply_count := S (ply_count g);
               history := history g ++ [san];
               fen := "rnbqkbnr/pppppppp/8/8/4P3/8/PPPP1PPP/RNBQKBNR b KQkq e3 0 1" |}
  else None.

(** The same stand-in for the engine of the session model, on positions
    given as board-notation strings. *)
Definition apply_only_e4 (position san : string)
    : Session.DomainError + string * Session.Outcome :=
  if bool_decide (san = "e4") && bool_decide (position = start_fen)
  then inr ("rnbqkbnr/pppppppp/8/8/4P3/8/PPPP1PPP/RNBQKBNR b KQkq e3 0 1", Session.Normal)
  else inl Session.AmbiguousOrIllegalMove.

Definition no_ai_agent (mover_id : string) : bool := false.

(** The starting document of the draw protocol scenario: players
    [P1]/[P2], white's offer outstanding, game in progress. *)
Definition draw_scenario : Session.GameSession string :=
  {| Session.players := mkBySide (Session.Occupied "P1") (Session.Occupied "P2");
     Session.free_slots := 0;
     Session.turn := SideW;
     Session.position := start_fen;
     Session.history := [];
     Session.ply_count := 0;
     Session.clock := Session.Timed (mkBySide 600%Q 600%Q) 0%Q 0%Q;
     Session.draw_offers := mkBySide (mkOffer true false) (mkOffer false false);
     Session.resigned := mkBySide false false;
     Session.status := Session.InProgress;
     Session.public := true;
     Session.board_id := "kevin" |}.

(** A session in progress in which white, to move, has no time left. *)
Definition flag_fallen : Session.GameSession string :=
  {| Session.players := mkBySide (Session.Occupied "P1") (Session.Occupied "P2");
     Session.free_slots := 0;
     Session.turn := SideW;
     Session.position := start_fen;
     Session.history := [];
     Session.ply_count := 0;
     Session.clock := Session.Timed (mkBySide 0%Q 600%Q) 0%Q 0%Q;
     Session.draw_offers := mkBySide (mkOffer false false) (mkOffer false false);
     Session.resigned := mkBySide false false;
     Session.status := Session.InProgress;
     Session.public := true;
     Session.board_id := "kevin" |}.

End Examples.

(** ** [DrawOfferInput] *)

Module DrawOfferInput.

Record data : Type := mkData {
  user_id : string;
  game_id : string
}.

(** [validate_draw_offer] *)
Definition validate_draw_offer (db : DB) (auth : Auth) (d : data) : V unit :=
  game ← load_game db (game_id d);
  assert_player_exists auth (user_id d);;
  require (bool_decide (user_id d ∈ values (players game))) UserNotInGame.

End DrawOfferInput.

(** ** [ResignInput] *)

Module ResignInput.

Record data : Type := mkData {
  user_id : string;
  game_id : string
}.

(** [validate_resignation] *)
Definition validate_resignation (db : DB) (auth : Auth) (d : data) : V unit :=
  game ← load_game db (game_id d);
  assert_player_exists auth (user_id d);;
  require (bool_decide (user_id d ∈ values (players game))) UserNotInGame.

End ResignInput.

(** ** [JoinGameInput] *)

Module JoinGameInput.

(** The request after field deserialisation; [side] is not required. *)
Record request : Type := mkRequest {
  game_id : string;
  player_id : string;
  side : option string
}.

(** What a load of this schema can report: one of the shared messages, or
    the message of [validate_side]. *)
Inductive message : Type :=
| Raised (e : ValidationError)
| ExpectedSide.      (* 'Expected side to be one of "w", "b".' *)

#[global] Instance message_eq_dec : EqDecision message.
Proof. solve_decision. Defined.

Definition messages_of (v : V unit) : list message :=
  match v with Valid _ => [] | Invalid e => [Raised e] end.

(** [game_exists] *)
Definition game_exists (db : DB) (value : string) : V unit :=
  match games db !! value with
  | Some _ => Valid ()
  | None => Invalid GameDoesntExist
  end.

(** [player_exists] *)
Definition player_exists (auth : Auth) (value : string) : V unit :=
  assert_player_exists auth value.

(** [validate_side]: the messages it raises, none when it returns. *)
Definition validate_side (value : string) : list message :=
  if bool_decide (value <> "w") && bool_decide (value <> "b")
  then [ExpectedSide]
  else [].

(** All messages collected by a load of the schema; the validator of a
    field runs only when the field is in the request. *)
Definition validate (db : DB) (auth : Auth) (r : request) : list message :=
  messages_of (game_exists db (game_id r)) ++
  messages_of (player_exists auth (player_id r)) ++
  match side r with
  | Some value => validate_side value
  | None => []
  end.

End JoinGameInput.

(** ** Further predicates on requests *)

(** [value] is acceptable as a player of a new game: a sentinel, or an id
    that exists for the identity provider. *)
Definition acceptable_player (auth : Auth) (value : string) : Prop :=
  value = OPEN_SLOT \/ value = AI \/ value ∈ auth.

(** The controller record [c] was seen less than [timeout] before [now]. *)
Definition seen_recently (timeout now : Q) (c : Controller) : Prop :=
  (now - last_seen_or_0 c < timeout)%Q.

(** * Properties *)

(** ** Validation steps *)

Lemma require_true (b : bool) (e : ValidationError) :
  require b e = Valid () <-> b = true.
Proof. destruct b; simpl; split; intros H; try reflexivity; discriminate. Qed.

Lemma assert_player_exists_valid (auth : Auth) (player : string) :
  assert_player_exists auth player = Valid () <-> player ∈ auth.
Proof.
  unfold assert_player_exists. rewrite require_true.
  apply bool_decide_eq_true.
Qed.

Lemma load_game_valid (db : DB) (id : string) (g : Game) :
  load_game db id = Valid g <-> games db !! id = Some g.
Proof.
  unfold load_game. destruct (games db !! id); split; intros H;
    inversion H; reflexivity.
Qed.

Lemma bind_valid {A B : Type} (m : V A) (f : A -> V B) (b : B) :
  (m ≫= f) = Valid b <-> exists a : A, m = Valid a /\ f a = Valid b.
Proof.
  destruct m as [a|e]; simpl; split.
  - intros H. exists a. auto.
  - intros (a' & Ha & H). inversion Ha; subst. exact H.
  - discriminate.
  - intros (a' & Ha & _). discriminate.
Qed.

Lemma seq_valid {B : Type} (m : V unit) (k : V B) (b : B) :
  (m ;; k) = Valid b <-> m = Valid () /\ k = Valid b.
Proof.
  rewrite bind_valid. split.
  - intros ([] & Hm & Hk). auto.
  - intros [Hm Hk]. exists (). auto.
Qed.

Lemma bind_invalid {A B : Type} (m : V A) (f : A -> V B) (e : ValidationError) :
  m = Invalid e -> (m ≫= f) = Invalid e.
Proof. intros ->. reflexivity. Qed.

Lemma bind_of_valid {A B : Type} (m : V A) (f : A -> V B) (a : A) :
  m = Valid a -> (m ≫= f) = f a.
Proof. intros ->. reflexivity. Qed.

(** ** Responding to a draw offer *)

(** C1, as the code has it: the response to a draw offer is validated
    exactly when the game exists, the identity provider knows the user and
    the user is one of the two players; the draw offers are not read. *)
Theorem validate_offer_response_iff (db : DB) (auth : Auth)
    (d : RespondOfferInput.data) :
  RespondOfferInput.validate_offer_response db auth d = Valid () <->
  exists g : Game,
    games db !! RespondOfferInput.game_id d = Some g /\
    RespondOfferInput.user_id d ∈ auth /\
    RespondOfferInput.user_id d ∈ values (players g).
Proof.
  unfold RespondOfferInput.validate_offer_response.
  rewrite bind_valid.
  split; intros (g & Hg & H); exists g.
  - apply load_game_valid in Hg.
    apply seq_valid in H as [Hauth Hin].
    apply assert_player_exists_valid in Hauth.
    apply require_true, bool_decide_eq_true in Hin. auto.
  - destruct H as [Hauth Hin].
    split; [by apply load_game_valid|].
    apply seq_valid. split; [by apply assert_player_exists_valid|].
    by apply require_true, bool_decide_eq_true.
Qed.

(** C1, the claim as stated fails: in the stored game of the tests white
    has made the offer, and white's own response is validated although no
    offer is directed at white. *)
Lemma offerer_may_respond_to_own_offer :
  ~ (RespondOfferInput.validate_offer_response Examples.mock_db Examples.mock_auth
       (RespondOfferInput.mkData "some_player_1" "some_game" true) = Valid ()
     -> faces_offer Examples.mock_game "some_player_1").
Proof.
  intros H.
  destruct (H eq_refl) as [s [Hmade Hplayer]].
  destruct s; simpl in *; discriminate.
Qed.

(** ** Validating a move *)

Section MoveValidation.

Import MakeMoveInput.

(** Any behaviour of [Game.move]. *)
Variable game_move : Game -> string -> option Game.

Lemma identity_step (auth : Auth) (user : string) :
  identity_checked auth user ->
  (if bool_decide (user = OPEN_SLOT) || bool_decide (user = AI)
   then Valid ()
   else assert_player_exists auth user) = Valid ().
Proof.
  intros [-> | [-> | Hin]]; try reflexivity.
  destruct (bool_decide (user = OPEN_SLOT) || bool_decide (user = AI));
    [reflexivity | by apply assert_player_exists_valid].
Qed.

Lemma identity_step_inv (auth : Auth) (user : string) :
  (if bool_decide (user = OPEN_SLOT) || bool_decide (user = AI)
   then Valid ()
   else assert_player_exists auth user) = Valid () ->
  identity_checked auth user.
Proof.
  unfold identity_checked.
  case_bool_decide as Ho; simpl; [auto|].
  case_bool_decide as Ha; simpl; [auto|].
  intros H. apply assert_player_exists_valid in H. auto.
Qed.

(** C5: on an existing game, a move request by a user (a sentinel or an
    id that exists for the identity provider) who is one of the players but
    does not hold the side to move is refused with the not-their-turn
    error; [Game.move] is never reached, whatever it would do. *)
Theorem validate_move_not_players_turn (db : DB) (auth : Auth) (d : data)
    (g : Game) :
  games db !! game_id d = Some g ->
  identity_checked auth (user_id d) ->
  user_id d ∈ values (players g) ->
  user_id d <> at_side (players g) (turn g) ->
  validate_move game_move db auth d = Invalid NotPlayersTurn.
Proof.
  intros Hg Hid Hin Hturn.
  unfold validate_move.
  rewrite (bind_of_valid _ _ g) by (by apply load_game_valid).
  rewrite (bind_of_valid _ _ ()) by (by apply identity_step).
  rewrite (bind_of_valid _ _ ())
    by (by apply require_true, bool_decide_eq_true).
  apply bind_invalid.
  unfold require. by rewrite bool_decide_eq_false_2.
Qed.

(** C6, as the code has it: a move on a game that is not in progress never
    validates, and it is the game-is-over error that is raised exactly when
    the request got through the three earlier steps (identity, membership,
    turn); otherwise the error of the first of those that fails is
    raised. *)
Theorem validate_move_not_in_progress (db : DB) (auth : Auth) (d : data)
    (g : Game) :
  games db !! game_id d = Some g ->
  in_progress g = false ->
  (exists e, validate_move game_move db auth d = Invalid e) /\
  (validate_move game_move db auth d = Invalid GameNotInProgress <->
   identity_checked auth (user_id d) /\
   user_id d ∈ values (players g) /\
   user_id d = at_side (players g) (turn g)).
Proof.
  intros Hg Hover.
  unfold validate_move.
  rewrite (bind_of_valid _ _ g) by (by apply load_game_valid).
  destruct (if bool_decide (user_id d = OPEN_SLOT) || bool_decide (user_id d = AI)
            then Valid () else assert_player_exists auth (user_id d))
    as [[]|e] eqn:Hid; simpl.
  - apply identity_step_inv in Hid.
    destruct (decide (user_id d ∈ values (players g))) as [Hin|Hin].
    + rewrite (bool_decide_eq_true_2 _ Hin); simpl.
      destruct (decide (user_id d = at_side (players g) (turn g))) as [Ht|Ht].
      * rewrite (bool_decide_eq_true_2 _ Ht), Hover; simpl.
        split; [eauto | tauto].
      * rewrite (bool_decide_eq_false_2 _ Ht); simpl.
        split; [eauto | split; [discriminate | tauto]].
    + rewrite (bool_decide_eq_false_2 _ Hin); simpl.
      split; [eauto | split; [discriminate | tauto]].
  - split; [eauto|]. split.
    + intros H. inversion H; subst.
      revert Hid. case_bool_decide; simpl; [discriminate|].
      case_bool_decide; simpl; [discriminate|].
      unfold assert_player_exists, require.
      case_bool_decide; discriminate.
    + intros (Hid' & _). apply identity_step in Hid'. congruence.
Qed.

(** C9, as the code has it: for a request in the name of a sentinel, on an
    existing game in progress whose side to move holds that sentinel, the
    outcome of validation is the outcome of [Game.move] on the submitted
    notation, and nothing else: the identity provider is not consulted, so
    any [auth] gives the same answer. *)
Theorem validate_move_for_sentinel (db : DB) (auth : Auth) (d : data)
    (g : Game) :
  user_id d = OPEN_SLOT \/ user_id d = AI ->
  games db !! game_id d = Some g ->
  in_progress g = true ->
  at_side (players g) (turn g) = user_id d ->
  validate_move game_move db auth d =
    match game_move g (move d) with
    | Some g' => Valid g'
    | None => Invalid InvalidMove
    end.
Proof.
  intros Hsent Hg Hprog Hturn.
  unfold validate_move.
  rewrite (bind_of_valid _ _ g) by (by apply load_game_valid).
  rewrite (bind_of_valid _ _ ())
    by (apply identity_step; destruct Hsent as [Hs|Hs]; [left | right; left]; exact Hs).
  rewrite (bind_of_valid _ _ ()).
  2:{ apply require_true, bool_decide_eq_true. unfold values.
      rewrite <- Hturn. apply list_elem_of_In.
      destruct (turn g); simpl; auto. }
  rewrite (bind_of_valid _ _ ())
    by (by apply require_true, bool_decide_eq_true).
  rewrite Hprog. reflexivity.
Qed.

End MoveValidation.

(** C5, at a concrete request: black tries to move in the stored game of
    the tests while white is to move. *)
Lemma validate_move_not_players_turn_witness :
  MakeMoveInput.validate_move Examples.only_e4 Examples.mock_db Examples.mock_auth
    (MakeMoveInput.mkData "some_player_2" "e4" "some_game")
  = Invalid NotPlayersTurn.
Proof.
  apply (validate_move_not_players_turn Examples.only_e4 Examples.mock_db
           Examples.mock_auth _ Examples.mock_game).
  - reflexivity.
  - right; right. vm_compute. reflexivity.
  - apply list_elem_of_In. simpl. auto.
  - simpl. discriminate.
Defined.

(** C6, the claim as stated fails: on the finished game black's move is
    refused for not being black's turn, before the game-is-over step. *)
Lemma finished_game_move_reports_turn_first :
  games Examples.mock_db !! "finished_game" = Some Examples.finished_game /\
  in_progress Examples.finished_game = false /\
  MakeMoveInput.validate_move Examples.only_e4 Examples.mock_db Examples.mock_auth
    (MakeMoveInput.mkData "some_player_2" "e4" "finished_game")
  = Invalid NotPlayersTurn /\
  MakeMoveInput.validate_move Examples.only_e4 Examples.mock_db Examples.mock_auth
    (MakeMoveInput.mkData "some_player_2" "e4" "finished_game")
  <> Invalid GameNotInProgress.
Proof. repeat split; try reflexivity. vm_compute. discriminate. Qed.

(** C6, at a concrete request: white, who is to move, on the finished
    game. *)
Lemma validate_move_not_in_progress_witness :
  (exists e,
     MakeMoveInput.validate_move Examples.only_e4 Examples.mock_db Examples.mock_auth
       (MakeMoveInput.mkData "some_player_1" "e4" "finished_game") = Invalid e) /\
  (MakeMoveInput.validate_move Examples.only_e4 Examples.mock_db Examples.mock_auth
     (MakeMoveInput.mkData "some_player_1" "e4" "finished_game")
   = Invalid GameNotInProgress <->
   identity_checked Examples.mock_auth "some_player_1" /\
   "some_player_1" ∈ values (players Examples.finished_game) /\
   "some_player_1" = at_side (players Examples.finished_game)
                       (turn Examples.finished_game)).
Proof.
  apply (validate_move_not_in_progress Examples.only_e4 Examples.mock_db
           Examples.mock_auth
           (MakeMoveInput.mkData "some_player_1" "e4" "finished_game")
           Examples.finished_game); reflexivity.
Defined.

(** C9, the claim as stated fails: the AI slot is to move in a game in
    progress and the request is made in the name of the sentinel, yet a
    notation the engine refuses does not pass validation. *)
Lemma sentinel_move_can_still_be_refused :
  games Examples.mock_db !! "ai_game" = Some Examples.ai_game /\
  in_progress Examples.ai_game = true /\
  at_side (players Examples.ai_game) (turn Examples.ai_game) = AI /\
  MakeMoveInput.validate_move Examples.only_e4 Examples.mock_db ∅
    (MakeMoveInput.mkData AI "Ke9" "ai_game")
  = Invalid InvalidMove.
Proof. repeat split; reflexivity. Qed.

(** C9, at a concrete request: the opening move in the name of the AI
    slot, with an identity provider that knows nobody. *)
Lemma validate_move_for_sentinel_witness :
  MakeMoveInput.validate_move Examples.only_e4 Examples.mock_db ∅
    (MakeMoveInput.mkData AI "e4" "ai_game")
  = match Examples.only_e4 Examples.ai_game "e4" with
    | Some g' => Valid g'
    | None => Invalid InvalidMove
    end.
Proof.
  apply (validate_move_for_sentinel Examples.only_e4 Examples.mock_db ∅
           (MakeMoveInput.mkData AI "e4" "ai_game") Examples.ai_game).
  - right. reflexivity.
  - reflexivity.
  - reflexivity.
  - reflexivity.
Defined.

(** ** Creating a game *)

Section CreateValidation.

Import CreateGameInput.

Variable TIMEOUT : Q.

Lemma validate_time_valid (value : Z) :
  validate_time value = Valid () <-> (0 <= value)%Z.
Proof.
  unfold validate_time. case_bool_decide as Hneg; split; intros H;
    try reflexivity; try discriminate; lia.
Qed.

Lemma validate_time_invalid (value : Z) :
  validate_time value = Invalid NegativeTime <-> (value < 0)%Z.
Proof.
  unfold validate_time. case_bool_decide as Hneg; split; intros H;
    try reflexivity; try discriminate; lia.
Qed.

Lemma player_valid_AI (auth : Auth) : player_valid auth AI = Valid ().
Proof. reflexivity. Qed.

Lemma keep_Some {A : Type} (v : V unit) (x y : A) :
  keep v x = Some y -> y = x.
Proof. unfold keep. destruct (passes v); intros H; inversion H; reflexivity. Qed.

Lemma two_ai_players_invalid (db : DB) (auth : Auth) (now : Q) (r : request) :
  two_ai_players (validated_data TIMEOUT db auth now r) = Invalid TwoAISlots <->
  player1_id r = AI /\ player2_id r = AI.
Proof.
  unfold two_ai_players, validated_data; simpl. split.
  - destruct (keep _ (player1_id r)) as [p1|] eqn:H1; [|discriminate].
    apply keep_Some in H1. subst.
    case_bool_decide as Ha; simpl; [|discriminate].
    case_bool_decide as Hb; simpl; [|discriminate].
    auto.
  - intros [-> ->]. reflexivity.
Qed.

Lemma two_ai_players_cases (d : data) :
  two_ai_players d = Valid () \/ two_ai_players d = Invalid TwoAISlots.
Proof.
  unfold two_ai_players.
  destruct (d_player1_id d), (d_player2_id d); auto.
  destruct (_ && _); auto.
Qed.

Lemma errors_of_nil (v : V unit) : errors_of v = [] <-> v = Valid ().
Proof.
  destruct v as [[]|e]; simpl; split; intros H; try reflexivity; discriminate.
Qed.

(** An empty list of messages means that every validator returned. *)
Lemma validate_nil (db : DB) (auth : Auth) (now : Q) (r : request) :
  validate TIMEOUT db auth now r = [] ->
  validate_time (time_per_player r) = Valid () /\
  board_exists_and_is_active TIMEOUT db now (board_id r) = Valid () /\
  two_ai_players (validated_data TIMEOUT db auth now r) = Valid ().
Proof.
  unfold validate. intros H.
  repeat (apply app_eq_nil in H as [? H]).
  repeat split; by apply errors_of_nil.
Qed.

(** C7: the time validator refuses exactly the negative values (zero is
    accepted), the two-AI validator refuses exactly the requests naming
    [AI] for both players, a request caught by either one is not
    created, and every other request gets through both. *)
Theorem create_rejects_two_ai_and_negative_time (db : DB) (auth : Auth)
    (now : Q) (r : request) :
  (validate_time (time_per_player r) = Invalid NegativeTime <->
   (time_per_player r < 0)%Z) /\
  (two_ai_players (validated_data TIMEOUT db auth now r) = Invalid TwoAISlots <->
   player1_id r = AI /\ player2_id r = AI) /\
  ((player1_id r = AI /\ player2_id r = AI) \/ (time_per_player r < 0)%Z ->
   validate TIMEOUT db auth now r <> []) /\
  (~ (player1_id r = AI /\ player2_id r = AI) /\ ~ (time_per_player r < 0)%Z ->
   validate_time (time_per_player r) = Valid () /\
   two_ai_players (validated_data TIMEOUT db auth now r) = Valid ()) /\
  validate_time 0 = Valid ().
Proof.
  split; [apply validate_time_invalid|].
  split; [apply two_ai_players_invalid|].
  split; [|split; [|reflexivity]].
  - intros Hbad Hnil.
    apply validate_nil in Hnil as (Htime & _ & Htwo).
    destruct Hbad as [Hai | Hneg].
    + apply (two_ai_players_invalid db auth now r) in Hai. congruence.
    + apply validate_time_invalid in Hneg. congruence.
  - intros [Hai Hneg]. split.
    + apply validate_time_valid. lia.
    + destruct (two_ai_players_cases (validated_data TIMEOUT db auth now r))
        as [H|H]; [exact H|].
      apply (two_ai_players_invalid db auth now r) in H. contradiction.
Qed.

Lemma board_active_iff (db : DB) (now : Q) (value : string) :
  board_exists_and_is_active TIMEOUT db now value = Valid () <->
  exists c : Controller,
    controllers db !! value = Some c /\
    (now - last_seen_or_0 c < TIMEOUT)%Q.
Proof.
  unfold board_exists_and_is_active.
  destruct (controllers db !! value) as [c|] eqn:Hc.
  - destruct (Qle_bool TIMEOUT (now - last_seen_or_0 c)) eqn:Hle.
    + apply Qle_bool_iff in Hle.
      split; [discriminate | intros (c' & Hc' & Hlt)].
      inversion Hc'; subst. apply Qlt_not_le in Hlt. contradiction.
    + split; [intros _ | reflexivity].
      exists c. split; [reflexivity|].
      apply Qnot_le_lt. intros Hle'. apply Qle_bool_iff in Hle'. congruence.
  - split; [discriminate | intros (c & Hc' & _); discriminate].
Qed.

(** C10: a game is created only for a board id whose controller record
    exists and was seen strictly less than [TIMEOUT] seconds ago (at a
    distance of exactly [TIMEOUT] the controller is inactive); a record
    without [last_seen] is read as last seen at time 0, and so refused as
    soon as the clock reads [TIMEOUT] or more. *)
Theorem create_requires_active_controller (db : DB) (auth : Auth)
    (now : Q) (r : request) :
  (board_exists_and_is_active TIMEOUT db now (board_id r) = Valid () <->
   exists c : Controller,
     controllers db !! board_id r = Some c /\
     (now - last_seen_or_0 c < TIMEOUT)%Q) /\
  (validate TIMEOUT db auth now r = [] ->
   board_exists_and_is_active TIMEOUT db now (board_id r) = Valid ()) /\
  (forall c : Controller,
     controllers db !! board_id r = Some c ->
     (now - last_seen_or_0 c == TIMEOUT)%Q ->
     board_exists_and_is_active TIMEOUT db now (board_id r)
     = Invalid ControllerNotActive) /\
  (forall c : Controller, last_seen c = None -> last_seen_or_0 c = 0%Q) /\
  (forall c : Controller,
     controllers db !! board_id r = Some c ->
     last_seen c = None ->
     (TIMEOUT <= now)%Q ->
     board_exists_and_is_active TIMEOUT db now (board_id r)
     = Invalid ControllerNotActive).
Proof.
  split; [apply board_active_iff|].
  split; [intros H; by apply validate_nil in H as (_ & Hb & _)|].
  split; [|split].
  - intros c Hc Heq. unfold board_exists_and_is_active. rewrite Hc.
    assert (Qle_bool TIMEOUT (now - last_seen_or_0 c) = true) as ->;
      [|reflexivity].
    apply Qle_bool_iff. rewrite Heq. apply Qle_refl.
  - intros c Hnone. unfold last_seen_or_0. rewrite Hnone. reflexivity.
  - intros c Hc Hnone Hle.
    unfold board_exists_and_is_active, last_seen_or_0. rewrite Hc, Hnone.
    simpl.
    assert (Qle_bool TIMEOUT (now - 0) = true) as ->; [|reflexivity].
    apply Qle_bool_iff. unfold Qminus. lra.
Qed.

End CreateValidation.

(** C7, at a concrete request: both players are the AI. *)
Lemma create_rejects_two_ai_and_negative_time_witness :
  CreateGameInput.validate 30%Q Examples.mock_db Examples.mock_auth 1010%Q
    (CreateGameInput.mkRequest "some_creator" AI AI 600 "kevin" None) <> [].
Proof.
  apply (proj1 (proj2 (proj2
           (create_rejects_two_ai_and_negative_time 30%Q Examples.mock_db
              Examples.mock_auth 1010%Q
              (CreateGameInput.mkRequest "some_creator" AI AI 600 "kevin" None))))).
  left. split; reflexivity.
Defined.

(** C10, at a concrete request: a controller record without [last_seen],
    with a timeout of thirty seconds and a present-day clock. *)
Lemma create_requires_active_controller_witness :
  CreateGameInput.board_exists_and_is_active 30%Q Examples.mock_db 1500000000%Q
    "silent_board" = Invalid ControllerNotActive.
Proof.
  apply (proj2 (proj2 (proj2 (proj2
           (create_requires_active_controller 30%Q Examples.mock_db
              Examples.mock_auth 1500000000%Q
              (CreateGameInput.mkRequest "some_creator" "some_player_1" AI 600
                 "silent_board" None)))))
           Examples.kevin_without_last_seen).
  - reflexivity.
  - reflexivity.
  - vm_compute. discriminate.
Defined.

(** ** The session operations *)

Section SessionOperations.

Import Session.

Variable Position : Type.
Variable apply : Position -> string -> DomainError + Position * Outcome.
Variable ai_agent : string -> bool.
Variable timeout_error : DomainError.

(** Unfolds an operation down to its tests. *)
Ltac open_op :=
  cbv [run join move offerDraw respondToOffer resign
       mbind mret Op_bind Op_ret get modify fail unless].

(** Splits on the next test of an unfolded operation. *)
Ltac split_test :=
  match goal with
  | |- context [match (if ?b then _ else _) with _ => _ end] => destruct b eqn:?
  | |- context [if ?b then _ else _] => destruct b eqn:?
  | |- context [match ?x with _ => _ end] => destruct x eqn:?
  end.

Ltac close_case_left :=
  intros; simpl in *;
  match goal with
  | H : Failed _ _ = Failed _ _ |- _ => inversion H; subst; left; reflexivity
  | H : Done _ _ = Failed _ _ |- _ => discriminate H
  end.

Ltac close_case :=
  intros; simpl in *;
  match goal with
  | H : Failed _ _ = Failed _ _ |- _ => inversion H; subst; reflexivity
  | H : Done _ _ = Failed _ _ |- _ => discriminate H
  end.

Lemma join_atomic (side : Side) (player_id : string) (g g' : GameSession Position) (e : DomainError) :
  join side player_id g = Failed e g' -> g' = g.
Proof. open_op. repeat split_test; close_case. Qed.

(** A failed move leaves the session as it was, except on an exhausted
    clock, where the status, and nothing else, has changed. *)
Lemma move_failure (mover_id notation : string) (now : Q)
    (g g' : GameSession Position) (e : DomainError) :
  move apply ai_agent timeout_error mover_id notation now g = Failed e g' ->
  g' = g \/
  (in_progress g = true /\
   resolves ai_agent (at_side (players g) (turn g)) mover_id = true /\
   exhausted (clock g) (turn g) = true /\
   e = timeout_error /\
   g' = with_status (Over timeout (win_for (opposite (turn g)))) g).
Proof.
  open_op.
  destruct (in_progress g) eqn:Hprog; [|close_case_left].
  destruct (resolves ai_agent (at_side (players g) (turn g)) mover_id) eqn:Hres;
    [|close_case_left].
  destruct (exhausted (clock g) (turn g)) eqn:Hex.
  - intros H. inversion H; subst. right. auto.
  - repeat split_test; close_case_left.
Qed.

Lemma offerDraw_atomic (user_id : string) (g g' : GameSession Position) (e : DomainError) :
  offerDraw user_id g = Failed e g' -> g' = g.
Proof. open_op. repeat split_test; close_case. Qed.

Lemma respondToOffer_atomic (user_id : string) (accept : bool) (g g' : GameSession Position)
    (e : DomainError) :
  respondToOffer user_id accept g = Failed e g' -> g' = g.
Proof. open_op. repeat split_test; close_case. Qed.

Lemma resign_atomic (user_id : string) (g g' : GameSession Position) (e : DomainError) :
  resign user_id g = Failed e g' -> g' = g.
Proof. open_op. repeat split_test; close_case. Qed.


(** The offer a response is matched with, for the player opposite [s]. *)
Lemma offer_directed_at_opposite (g : GameSession Position) (s : Side) (user_id : string) :
  made (at_side (draw_offers g) s) = true ->
  at_side (players g) (opposite s) = Occupied user_id ->
  at_side (players g) s <> Occupied user_id ->
  offer_directed_at g user_id = Some s /\ side_of g user_id = Some (opposite s).
Proof.
  intros Hmade Hopp Hself.
  unfold offer_directed_at, side_of.
  destruct s; simpl in *.
  - rewrite Hmade. rewrite (bool_decide_eq_false_2 _ Hself); simpl.
    rewrite (bool_decide_eq_true_2 _ Hopp). auto.
  - rewrite (bool_decide_eq_true_2 _ Hopp). rewrite andb_false_r.
    rewrite Hmade. rewrite (bool_decide_eq_false_2 _ Hself). simpl. auto.
Qed.

(** C3: in a game in progress with an outstanding offer of side [s], the
    acceptance by the player of the other side marks that offer as
    accepted and ends the game as an agreed draw. *)
Theorem respondToOffer_accept (g : GameSession Position) (s : Side) (user_id : string) :
  status g = InProgress ->
  made (at_side (draw_offers g) s) = true ->
  at_side (players g) (opposite s) = Occupied user_id ->
  at_side (players g) s <> Occupied user_id ->
  exists g' : GameSession Position,
    respondToOffer user_id true g = Done () g' /\
    accepted (at_side (draw_offers g') s) = true /\
    status g' = Over draw_accepted draw.
Proof.
  intros Hst Hmade Hopp Hself.
  destruct (offer_directed_at_opposite g s user_id Hmade Hopp Hself) as [Hoff Hside].
  open_op. unfold in_progress.
  rewrite (bool_decide_eq_true_2 _ Hst), Hside, Hoff; simpl.
  eexists. split; [reflexivity|].
  split; [|reflexivity].
  destruct s; reflexivity.
Qed.

(** C4: in the same situation, the refusal by the player of the other
    side resets that offer to not made and not accepted, and the game
    stays in progress. *)
Theorem respondToOffer_decline (g : GameSession Position) (s : Side) (user_id : string) :
  status g = InProgress ->
  made (at_side (draw_offers g) s) = true ->
  at_side (players g) (opposite s) = Occupied user_id ->
  at_side (players g) s <> Occupied user_id ->
  exists g' : GameSession Position,
    respondToOffer user_id false g = Done () g' /\
    at_side (draw_offers g') s = mkOffer false false /\
    status g' = InProgress.
Proof.
  intros Hst Hmade Hopp Hself.
  destruct (offer_directed_at_opposite g s user_id Hmade Hopp Hself) as [Hoff Hside].
  open_op. unfold in_progress.
  rewrite (bool_decide_eq_true_2 _ Hst), Hside, Hoff; simpl.
  eexists. split; [reflexivity|].
  split; [|exact Hst].
  destruct s; reflexivity.
Qed.

End SessionOperations.



(** C3, at the draw scenario: [P2] accepts white's offer. *)
Lemma respondToOffer_accept_witness :
  exists g' : Session.GameSession string,
    Session.respondToOffer "P2" true Examples.draw_scenario = Session.Done () g' /\
    accepted (on_w (Session.draw_offers g')) = true /\
    Session.status g' = Session.Over Session.draw_accepted Session.draw.
Proof.
  apply (respondToOffer_accept string Examples.draw_scenario SideW "P2").
  - reflexivity.
  - reflexivity.
  - reflexivity.
  - simpl. discriminate.
Defined.

(** C4, at the draw scenario: [P2] declines white's offer. *)
Lemma respondToOffer_decline_witness :
  exists g' : Session.GameSession string,
    Session.respondToOffer "P2" false Examples.draw_scenario = Session.Done () g' /\
    on_w (Session.draw_offers g') = mkOffer false false /\
    Session.status g' = Session.InProgress.
Proof.
  apply (respondToOffer_decline string Examples.draw_scenario SideW "P2").
  - reflexivity.
  - reflexivity.
  - reflexivity.
  - simpl. discriminate.
Defined.

(** ** The controller registry *)

Section Registration.

Import ControllerRegistry.

Variable TIMEOUT : Q.

(** C8: for a board id that already has a record, a registration inside
    the liveness window is refused, and one after the window is accepted
    and leaves the game id of the record as it was. *)
Theorem reregistration_keeps_game_id (now : Q) (board_id version : string)
    (cs : gmap string Controller) (c : Controller) :
  cs !! board_id = Some c ->
  ((now - last_seen_or_0 c < TIMEOUT)%Q ->
   register TIMEOUT now board_id version cs = inl WithinLivenessWindow) /\
  ((TIMEOUT <= now - last_seen_or_0 c)%Q ->
   exists (cs' : gmap string Controller) (c' : Controller),
     register TIMEOUT now board_id version cs = inr cs' /\
     cs' !! board_id = Some c' /\
     assigned_game c' = assigned_game c).
Proof.
  intros Hc. unfold register, within_window. rewrite Hc. split.
  - intros Hlt.
    destruct (Qle_bool TIMEOUT (now - last_seen_or_0 c)) eqn:Hle; [|reflexivity].
    apply Qle_bool_iff in Hle. apply Qlt_not_le in Hlt. contradiction.
  - intros Hle. apply Qle_bool_iff in Hle. rewrite Hle. simpl.
    eexists _, _. split; [reflexivity|].
    split; [apply lookup_insert_eq | reflexivity].
Qed.

End Registration.

(** C8, at the record of the regression test: a controller with a game,
    last seen 6000 seconds before the new registration. *)
Lemma reregistration_keeps_game_id_witness :
  exists (cs' : gmap string Controller) (c' : Controller),
    ControllerRegistry.register 30%Q 7000%Q "kevin" "0.0.1"
      (controllers Examples.mock_db) = inr cs' /\
    cs' !! "kevin" = Some c' /\
    assigned_game c' = Some "some_id".
Proof.
  apply (proj2 (reregistration_keeps_game_id 30%Q 7000%Q "kevin" "0.0.1"
                  (controllers Examples.mock_db) Examples.kevin eq_refl)).
  vm_compute. discriminate.
Defined.

(** * Further properties of the schemas *)

(** ** More on validating a move *)

Lemma turn_holder_is_player (g : Game) :
  at_side (players g) (turn g) ∈ values (players g).
Proof.
  apply list_elem_of_In. unfold values. destruct (turn g); simpl; auto.
Qed.

Lemma identity_checked_mono (auth auth' : Auth) (user : string) :
  auth ⊆ auth' -> identity_checked auth user -> identity_checked auth' user.
Proof.
  intros Hsub [H | [H | H]]; [left | right; left | right; right]; auto.
Qed.

Lemma not_sentinel_checked (auth : Auth) (user : string) :
  user <> OPEN_SLOT -> user <> AI -> identity_checked auth user -> user ∈ auth.
Proof. intros Ho Ha [H | [H | H]]; [contradiction | contradiction | exact H]. Qed.

(** Closes the entries of an error table once the outcome of every check
    is among the hypotheses. *)
Ltac close_table :=
  repeat split; intros;
  try discriminate; try reflexivity; try assumption;
  try (destruct_and?; first [congruence | contradiction | tauto]).

Section MoreMoveValidation.

Import MakeMoveInput.

Variable game_move : Game -> string -> option Game.

Lemma identity_step_invalid (auth : Auth) (user : string) (e : ValidationError) :
  (if bool_decide (user = OPEN_SLOT) || bool_decide (user = AI)
   then Valid ()
   else assert_player_exists auth user) = Invalid e ->
  e = UserDoesntExist /\ ~ identity_checked auth user.
Proof.
  intros H. split.
  - revert H. destruct (_ || _); [discriminate|].
    unfold assert_player_exists, require.
    case_bool_decide as Hknown; [discriminate|].
    intros H; inversion H; reflexivity.
  - intros Hid. apply identity_step in Hid. congruence.
Qed.

(** X1: a move request is validated, with [g'] as the moved game, exactly
    when the game exists, the user is a sentinel or exists, the user holds
    the side to move, the game is in progress and [Game.move] turns the
    stored game into [g']. *)
Theorem validate_move_passes_iff (db : DB) (auth : Auth) (d : data) (g' : Game) :
  validate_move game_move db auth d = Valid g' <->
  exists g : Game,
    games db !! game_id d = Some g /\
    identity_checked auth (user_id d) /\
    user_id d = at_side (players g) (turn g) /\
    in_progress g = true /\
    game_move g (move d) = Some g'.
Proof.
  unfold validate_move. rewrite bind_valid.
  split.
  - intros (g & Hg & H). exists g.
    apply load_game_valid in Hg.
    apply seq_valid in H as [Hid H]. apply identity_step_inv in Hid.
    apply seq_valid in H as [_ H].
    apply seq_valid in H as [Hturn H].
    apply require_true, bool_decide_eq_true in Hturn.
    apply seq_valid in H as [Hprog H]. apply require_true in Hprog.
    destruct (game_move g (move d)) as [g''|]; [|discriminate].
    inversion H; subst. auto.
  - intros (g & Hg & Hid & Hturn & Hprog & Hmove). exists g.
    split; [by apply load_game_valid|].
    apply seq_valid. split; [by apply identity_step|].
    apply seq_valid. split.
    { apply require_true, bool_decide_eq_true. rewrite Hturn.
      apply turn_holder_is_player. }
    apply seq_valid. split; [by apply require_true, bool_decide_eq_true|].
    apply seq_valid. split; [by apply require_true|].
    rewrite Hmove. reflexivity.
Qed.

(** X2: the message of a refused move is that of the first check that
    fails, in the order game, identity, membership, turn, progress, move. *)
Theorem validate_move_error_table (db : DB) (auth : Auth) (d : data) :
  (validate_move game_move db auth d = Invalid GameDoesntExist <->
   games db !! game_id d = None) /\
  (forall g : Game,
     games db !! game_id d = Some g ->
     (validate_move game_move db auth d = Invalid UserDoesntExist <->
      ~ identity_checked auth (user_id d)) /\
     (validate_move game_move db auth d = Invalid UserNotInGame <->
      identity_checked auth (user_id d) /\
      user_id d ∉ values (players g)) /\
     (validate_move game_move db auth d = Invalid NotPlayersTurn <->
      identity_checked auth (user_id d) /\
      user_id d ∈ values (players g) /\
      user_id d <> at_side (players g) (turn g)) /\
     (validate_move game_move db auth d = Invalid GameNotInProgress <->
      identity_checked auth (user_id d) /\
      user_id d = at_side (players g) (turn g) /\
      in_progress g = false) /\
     (validate_move game_move db auth d = Invalid InvalidMove <->
      identity_checked auth (user_id d) /\
      user_id d = at_side (players g) (turn g) /\
      in_progress g = true /\
      game_move g (move d) = None)).
Proof.
  unfold validate_move. split.
  - unfold load_game.
    destruct (games db !! game_id d) as [g|] eqn:Hg; simpl; [|tauto].
    split; [|discriminate].
    destruct (if _ || _ then _ else _) as [[]|e] eqn:Hid; simpl.
    + unfold require.
      repeat (case_bool_decide; simpl; try discriminate);
        destruct (in_progress g); simpl; try discriminate;
        destruct (game_move g (move d)); discriminate.
    + apply identity_step_invalid in Hid as [-> _]. discriminate.
  - intros g Hg.
    rewrite (bind_of_valid _ _ g) by (by apply load_game_valid).
    pose proof (turn_holder_is_player g) as Hholder.
    destruct (if _ || _ then _ else _) as [[]|e] eqn:Hid; simpl.
    + apply identity_step_inv in Hid.
      destruct (decide (user_id d ∈ values (players g))) as [Hin|Hin].
      * rewrite (bool_decide_eq_true_2 _ Hin); simpl.
        destruct (decide (user_id d = at_side (players g) (turn g))) as [Ht|Ht].
        -- rewrite (bool_decide_eq_true_2 _ Ht); simpl.
           destruct (in_progress g) eqn:Hprog; simpl;
             [destruct (game_move g (move d)) as [g''|] eqn:Hmove|];
             close_table.
        -- rewrite (bool_decide_eq_false_2 _ Ht); simpl. close_table.
      * rewrite (bool_decide_eq_false_2 _ Hin); simpl.
        assert (user_id d <> at_side (players g) (turn g)) as Ht
          by (intros Heq; rewrite Heq in Hin; contradiction).
        close_table.
    + apply identity_step_invalid in Hid as [-> Hno]. close_table.
Qed.

(** X3: a move that is validated stays validated, with the same moved
    game, when the identity provider knows more users. *)
Theorem validate_move_more_users (db : DB) (auth auth' : Auth) (d : data)
    (g' : Game) :
  auth ⊆ auth' ->
  validate_move game_move db auth d = Valid g' ->
  validate_move game_move db auth' d = Valid g'.
Proof.
  intros Hsub H.
  apply validate_move_passes_iff in H as (g & Hg & Hid & Hrest).
  apply validate_move_passes_iff. exists g.
  split; [exact Hg|]. split; [|exact Hrest].
  by apply (identity_checked_mono auth).
Qed.

End MoreMoveValidation.

(** X2, at a concrete request: somebody who plays in no stored game. *)
Lemma validate_move_error_table_witness :
  MakeMoveInput.validate_move Examples.only_e4 Examples.mock_db Examples.mock_auth
    (MakeMoveInput.mkData "some_creator" "e4" "some_game")
  = Invalid UserNotInGame.
Proof.
  apply (proj1 (proj2 (proj2
           (validate_move_error_table Examples.only_e4 Examples.mock_db
              Examples.mock_auth
              (MakeMoveInput.mkData "some_creator" "e4" "some_game"))
           Examples.mock_game eq_refl))).
  split.
  - right; right. vm_compute. reflexivity.
  - intros Hin. apply list_elem_of_In in Hin. simpl in Hin.
    destruct Hin as [H | [H | []]]; discriminate.
Defined.

(** X3, at a concrete request: white's opening move, with one more user
    known to the identity provider. *)
Lemma validate_move_more_users_witness :
  MakeMoveInput.validate_move Examples.only_e4 Examples.mock_db
    ({[ "somebody_else" ]} ∪ Examples.mock_auth)
    (MakeMoveInput.mkData "some_player_1" "e4" "some_game")
  = match Examples.only_e4 Examples.mock_game "e4" with
    | Some g' => Valid g'
    | None => Invalid InvalidMove
    end.
Proof.
  apply (validate_move_more_users Examples.only_e4 Examples.mock_db
           Examples.mock_auth).
  - apply union_subseteq_r.
  - reflexivity.
Defined.

(** ** Draw offers, responses and resignations *)

Lemma three_checks_valid (db : DB) (auth : Auth) (user id : string) :
  (game ← load_game db id;
   assert_player_exists auth user;;
   require (bool_decide (user ∈ values (players game))) UserNotInGame)
  = Valid () <->
  exists g : Game,
    games db !! id = Some g /\ user ∈ auth /\ user ∈ values (players g).
Proof.
  rewrite bind_valid.
  split; intros (g & Hg & H); exists g.
  - apply load_game_valid in Hg.
    apply seq_valid in H as [Hauth Hin].
    apply assert_player_exists_valid in Hauth.
    apply require_true, bool_decide_eq_true in Hin. auto.
  - destruct H as [Hauth Hin].
    split; [by apply load_game_valid|].
    apply seq_valid. split; [by apply assert_player_exists_valid|].
    by apply require_true, bool_decide_eq_true.
Qed.

(** X4: a draw offer is validated exactly when the game exists, the user
    exists for the identity provider and is one of the two players;
    whether the game is still in progress and whether an offer is already
    outstanding play no part. *)
Theorem validate_draw_offer_iff (db : DB) (auth : Auth) (d : DrawOfferInput.data) :
  DrawOfferInput.validate_draw_offer db auth d = Valid () <->
  exists g : Game,
    games db !! DrawOfferInput.game_id d = Some g /\
    DrawOfferInput.user_id d ∈ auth /\
    DrawOfferInput.user_id d ∈ values (players g).
Proof. apply three_checks_valid. Qed.

(** X5: the message of a refused resignation is that of the first check
    that fails, in the order game, identity, membership; in particular a
    resignation in the name of a sentinel that the identity provider does
    not know is refused even when the sentinel holds a slot. *)
Theorem validate_resignation_error_table (db : DB) (auth : Auth)
    (d : ResignInput.data) :
  (ResignInput.validate_resignation db auth d = Invalid GameDoesntExist <->
   games db !! ResignInput.game_id d = None) /\
  (forall g : Game,
     games db !! ResignInput.game_id d = Some g ->
     (ResignInput.validate_resignation db auth d = Invalid UserDoesntExist <->
      ResignInput.user_id d ∉ auth) /\
     (ResignInput.validate_resignation db auth d = Invalid UserNotInGame <->
      ResignInput.user_id d ∈ auth /\
      ResignInput.user_id d ∉ values (players g)) /\
     (ResignInput.validate_resignation db auth d = Valid () <->
      ResignInput.user_id d ∈ auth /\
      ResignInput.user_id d ∈ values (players g))).
Proof.
  unfold ResignInput.validate_resignation, load_game, assert_player_exists, require.
  destruct (games db !! ResignInput.game_id d) as [g|] eqn:Hg; simpl.
  - split.
    + repeat (case_bool_decide; simpl); close_table.
    + intros g' Hg'. inversion Hg'; subst g'.
      destruct (decide (ResignInput.user_id d ∈ auth)) as [Ha|Ha];
        [rewrite (bool_decide_eq_true_2 _ Ha)
        |rewrite (bool_decide_eq_false_2 _ Ha)]; simpl.
      * destruct (decide (ResignInput.user_id d ∈ values (players g))) as [Hin|Hin];
          [rewrite (bool_decide_eq_true_2 _ Hin)
          |rewrite (bool_decide_eq_false_2 _ Hin)]; simpl; close_table.
      * close_table.
  - split; [close_table|]. intros g Hg'. discriminate.
Qed.

(** X6: the outcome of validating a response depends on the stored game
    through its players only: two stores whose games under the requested
    id have the same players give the same outcome, whatever else the
    games differ in (offers made, progress, turn). *)
Theorem validate_offer_response_reads_players_only (db db' : DB) (auth : Auth)
    (d : RespondOfferInput.data) (g g' : Game) :
  games db !! RespondOfferInput.game_id d = Some g ->
  games db' !! RespondOfferInput.game_id d = Some g' ->
  players g = players g' ->
  RespondOfferInput.validate_offer_response db auth d
  = RespondOfferInput.validate_offer_response db' auth d.
Proof.
  intros Hg Hg' Hp.
  unfold RespondOfferInput.validate_offer_response, load_game.
  rewrite Hg, Hg'. simpl. rewrite Hp. reflexivity.
Qed.

Section MoveThenOthers.

Variable game_move : Game -> string -> option Game.

(** X7: whoever may move under their own identity may also resign, offer
    a draw and respond to an offer: if a move request of a user that is
    not a sentinel is validated, so are those three requests for the same
    game and user. *)
Theorem mover_may_offer_respond_resign (db : DB) (auth : Auth)
    (d : MakeMoveInput.data) (g' : Game) (response : bool) :
  MakeMoveInput.user_id d <> OPEN_SLOT ->
  MakeMoveInput.user_id d <> AI ->
  MakeMoveInput.validate_move game_move db auth d = Valid g' ->
  DrawOfferInput.validate_draw_offer db auth
    (DrawOfferInput.mkData (MakeMoveInput.user_id d) (MakeMoveInput.game_id d))
  = Valid () /\
  RespondOfferInput.validate_offer_response db auth
    (RespondOfferInput.mkData (MakeMoveInput.user_id d) (MakeMoveInput.game_id d)
       response)
  = Valid () /\
  ResignInput.validate_resignation db auth
    (ResignInput.mkData (MakeMoveInput.user_id d) (MakeMoveInput.game_id d))
  = Valid ().
Proof.
  intros Ho Ha H.
  apply validate_move_passes_iff in H as (g & Hg & Hid & Hturn & _).
  assert (exists g0 : Game,
            games db !! MakeMoveInput.game_id d = Some g0 /\
            MakeMoveInput.user_id d ∈ auth /\
            MakeMoveInput.user_id d ∈ values (players g0)) as Hok.
  { exists g. split; [exact Hg|]. split.
    - by apply not_sentinel_checked.
    - rewrite Hturn. apply turn_holder_is_player. }
  repeat split; by apply three_checks_valid.
Qed.

End MoveThenOthers.

(** X5, at a concrete request: a resignation in the name of the AI slot
    of a stored game, which the identity provider does not know. *)
Lemma validate_resignation_error_table_witness :
  ResignInput.validate_resignation Examples.mock_db Examples.mock_auth
    (ResignInput.mkData AI "ai_game") = Invalid UserDoesntExist.
Proof.
  apply (proj1 (proj2 (validate_resignation_error_table Examples.mock_db
                         Examples.mock_auth (ResignInput.mkData AI "ai_game"))
                 Examples.ai_game eq_refl)).
  vm_compute. discriminate.
Defined.

(** X6, at two concrete stores: the finished game and the running game of
    the tests have the same players. *)
Lemma validate_offer_response_reads_players_only_witness :
  RespondOfferInput.validate_offer_response Examples.mock_db Examples.mock_auth
    (RespondOfferInput.mkData "some_player_2" "some_game" false)
  = RespondOfferInput.validate_offer_response
      (mkDB {[ "some_game" := Examples.finished_game ]} ∅) Examples.mock_auth
      (RespondOfferInput.mkData "some_player_2" "some_game" false).
Proof.
  apply (validate_offer_response_reads_players_only Examples.mock_db
           (mkDB {[ "some_game" := Examples.finished_game ]} ∅) Examples.mock_auth
           (RespondOfferInput.mkData "some_player_2" "some_game" false)
           Examples.mock_game Examples.finished_game);
    reflexivity.
Defined.

(** X7, at a concrete request: white's opening move in the stored game of
    the tests. *)
Lemma mover_may_offer_respond_resign_witness :
  DrawOfferInput.validate_draw_offer Examples.mock_db Examples.mock_auth
    (DrawOfferInput.mkData "some_player_1" "some_game") = Valid () /\
  RespondOfferInput.validate_offer_response Examples.mock_db Examples.mock_auth
    (RespondOfferInput.mkData "some_player_1" "some_game" true) = Valid () /\
  ResignInput.validate_resignation Examples.mock_db Examples.mock_auth
    (ResignInput.mkData "some_player_1" "some_game") = Valid ().
Proof.
  apply (mover_may_offer_respond_resign Examples.only_e4 Examples.mock_db
           Examples.mock_auth
           (MakeMoveInput.mkData "some_player_1" "e4" "some_game")
           (mkGame (players Examples.mock_game) 2 (resigned Examples.mock_game)
              (draw_offers Examples.mock_game) true SideB 1 ["e4"]
              "rnbqkbnr/pppppppp/8/8/4P3/8/PPPP1PPP/RNBQKBNR b KQkq e3 0 1")
           true).
  - simpl. discriminate.
  - simpl. discriminate.
  - reflexivity.
Defined.

(** ** Joining a game *)

Section JoinValidation.

Import JoinGameInput.

Lemma validate_side_nil (value : string) :
  validate_side value = [] <-> value = "w" \/ value = "b".
Proof.
  unfold validate_side.
  destruct (decide (value = "w")) as [-> | Hw];
    [split; [auto | intros _; reflexivity]|].
  destruct (decide (value = "b")) as [-> | Hb];
    [split; [auto | intros _; reflexivity]|].
  rewrite !bool_decide_eq_true_2 by assumption. simpl.
  split; [discriminate | tauto].
Qed.

Lemma validate_side_cases (value : string) :
  validate_side value = [] \/ validate_side value = [ExpectedSide].
Proof. unfold validate_side. destruct (_ && _); auto. Qed.

Lemma validate_side_expected (value : string) :
  ExpectedSide ∈ validate_side value <-> value <> "w" /\ value <> "b".
Proof.
  pose proof (validate_side_nil value) as Hnil.
  destruct (validate_side_cases value) as [H | H]; rewrite H in *.
  - rewrite elem_of_nil. split; [tauto|]. intros [Hw Hb].
    destruct (proj1 Hnil eq_refl); contradiction.
  - rewrite list_elem_of_singleton. split; [|reflexivity].
    intros _. split; intros Heq;
      (assert ([ExpectedSide] = @nil message) as Hbad by (apply Hnil; auto));
      discriminate.
Qed.

Lemma validate_side_never_raised (value : string) (e : ValidationError) :
  Raised e ∉ validate_side value.
Proof.
  destruct (validate_side_cases value) as [-> | ->].
  - apply not_elem_of_nil.
  - rewrite list_elem_of_singleton. discriminate.
Qed.

Lemma messages_of_nil (v : V unit) : messages_of v = [] <-> v = Valid ().
Proof.
  destruct v as [[]|e]; simpl; split; intros H; try reflexivity; discriminate.
Qed.

Lemma game_exists_valid (db : DB) (value : string) :
  game_exists db value = Valid () <-> is_Some (games db !! value).
Proof.
  unfold game_exists. destruct (games db !! value) as [g|]; split; intros H;
    try reflexivity; try discriminate; [eauto | by destruct H].
Qed.

(** X8: a join request is validated exactly when the game exists, the
    player exists for the identity provider, and the side, if one is
    given, is ["w"] or ["b"]; a request without a side is fine. *)
Theorem join_validate_nil_iff (db : DB) (auth : Auth) (r : request) :
  validate db auth r = [] <->
  is_Some (games db !! game_id r) /\
  player_id r ∈ auth /\
  (side r = None \/ side r = Some "w" \/ side r = Some "b").
Proof.
  unfold validate. rewrite !app_nil, !messages_of_nil, game_exists_valid.
  unfold player_exists. rewrite assert_player_exists_valid.
  destruct (side r) as [value|].
  - rewrite validate_side_nil. split.
    + intros (Hg & Hp & [-> | ->]); auto.
    + intros (Hg & Hp & [H | [H | H]]); try discriminate;
        inversion H; auto.
  - split; [intros (Hg & Hp & _); auto | intros (Hg & Hp & _); auto].
Qed.

(** X9: every check of a join request reports on its own: each of the
    three messages is among those of a load exactly when its check fails,
    whatever the other two checks give. *)
Theorem join_messages (db : DB) (auth : Auth) (r : request) :
  (Raised GameDoesntExist ∈ validate db auth r <->
   games db !! game_id r = None) /\
  (Raised UserDoesntExist ∈ validate db auth r <->
   player_id r ∉ auth) /\
  (ExpectedSide ∈ validate db auth r <->
   exists value : string,
     side r = Some value /\ value <> "w" /\ value <> "b").
Proof.
  unfold validate, game_exists, player_exists, assert_player_exists, require.
  rewrite !elem_of_app.
  assert (forall (v : V unit) (e : ValidationError),
            Raised e ∈ messages_of v <-> v = Invalid e) as Hmsg.
  { intros [[]|e'] e; simpl.
    - rewrite elem_of_nil. split; [tauto | discriminate].
    - rewrite list_elem_of_singleton. split; intros H; inversion H; reflexivity. }
  assert (forall v : V unit, ExpectedSide ∉ messages_of v) as Hnoside.
  { intros [[]|e']; simpl.
    - apply not_elem_of_nil.
    - rewrite list_elem_of_singleton. discriminate. }
  assert (forall e : ValidationError,
            Raised e ∉ match side r with
                       | Some value => validate_side value
                       | None => []
                       end) as Hnoraise.
  { intros e. destruct (side r); [apply validate_side_never_raised
                                 | apply not_elem_of_nil]. }
  rewrite !Hmsg.
  split; [|split].
  - destruct (games db !! game_id r) as [g|]; split.
    + intros [H | [H | H]]; [discriminate | | by apply Hnoraise in H].
      destruct (bool_decide _); discriminate.
    + discriminate.
    + intros _; reflexivity.
    + auto.
  - destruct (games db !! game_id r) as [g|];
      destruct (decide (player_id r ∈ auth)) as [Ha|Ha];
      rewrite ?(bool_decide_eq_true_2 _ Ha), ?(bool_decide_eq_false_2 _ Ha);
      (split; [intros [H | [H | H]];
                 [try discriminate | try discriminate | by apply Hnoraise in H];
                 assumption
              | intros Hno; try contradiction; right; left; reflexivity]).
  - split.
    + intros [H | [H | H]]; [by apply Hnoside in H | by apply Hnoside in H |].
      destruct (side r) as [value|]; [|by apply elem_of_nil in H].
      exists value. split; [reflexivity | by apply validate_side_expected].
    + intros (value & Hs & Hw & Hb). right; right. rewrite Hs.
      by apply validate_side_expected.
Qed.

(** X10: a join request reads nothing of the stored game but its
    existence: two stores that agree on whether the game exists give the
    same messages, whatever its slots hold. *)
Theorem join_reads_existence_only (db db' : DB) (auth : Auth) (r : request) :
  (is_Some (games db !! game_id r) <-> is_Some (games db' !! game_id r)) ->
  validate db auth r = validate db' auth r.
Proof.
  intros Hsame. unfold validate, game_exists.
  destruct (games db !! game_id r) as [g|] eqn:Hg;
    destruct (games db' !! game_id r) as [g'|] eqn:Hg'; try reflexivity.
  - destruct Hsame as [H _]. destruct (H (mk_is_Some _ _ eq_refl)); discriminate.
  - destruct Hsame as [_ H]. destruct (H (mk_is_Some _ _ eq_refl)); discriminate.
Qed.

End JoinValidation.

(** X10, at two concrete stores: the stored game of the tests, and a
    store holding the finished game under the same id. *)
Lemma join_reads_existence_only_witness :
  JoinGameInput.validate Examples.mock_db Examples.mock_auth
    (JoinGameInput.mkRequest "some_game" "some_creator" (Some "w"))
  = JoinGameInput.validate
      (mkDB {[ "some_game" := Examples.finished_game ]} ∅) Examples.mock_auth
      (JoinGameInput.mkRequest "some_game" "some_creator" (Some "w")).
Proof.
  apply (join_reads_existence_only Examples.mock_db
           (mkDB {[ "some_game" := Examples.finished_game ]} ∅)).
  split; intros _; eexists; reflexivity.
Defined.

(** ** More on creating a game *)

Section MoreCreateValidation.

Import CreateGameInput.

Variable TIMEOUT : Q.

Lemma player_valid_iff (auth : Auth) (value : string) :
  player_valid auth value = Valid () <-> acceptable_player auth value.
Proof.
  split; [apply identity_step_inv | apply identity_step].
Qed.

Lemma two_ai_players_valid (db : DB) (auth : Auth) (now : Q) (r : request) :
  two_ai_players (validated_data TIMEOUT db auth now r) = Valid () <->
  ~ (player1_id r = AI /\ player2_id r = AI).
Proof.
  pose proof (two_ai_players_invalid TIMEOUT db auth now r) as Hinv.
  destruct (two_ai_players_cases (validated_data TIMEOUT db auth now r))
    as [H | H]; rewrite H in *.
  - split; [|reflexivity]. intros _ Hboth.
    apply Hinv in Hboth. discriminate.
  - split; [discriminate|]. intros Hno. destruct Hno. by apply Hinv.
Qed.

(** X11: what gets a game created. A request whose creator exists, whose
    players are sentinels or exist, whose time is not negative, whose
    board's controller exists and was seen less than [TIMEOUT] ago, and
    whose players are not both the AI, is validated; and a validated
    request has an existing creator, a time that is not negative, such a
    controller, and not the AI on both sides. *)
Theorem create_validate_nil (db : DB) (auth : Auth) (now : Q) (r : request) :
  (creator_id r ∈ auth /\
   acceptable_player auth (player1_id r) /\
   acceptable_player auth (player2_id r) /\
   (0 <= time_per_player r)%Z /\
   (exists c : Controller,
      controllers db !! board_id r = Some c /\ seen_recently TIMEOUT now c) /\
   ~ (player1_id r = AI /\ player2_id r = AI) ->
   validate TIMEOUT db auth now r = []) /\
  (validate TIMEOUT db auth now r = [] ->
   creator_id r ∈ auth /\
   (0 <= time_per_player r)%Z /\
   (exists c : Controller,
      controllers db !! board_id r = Some c /\ seen_recently TIMEOUT now c) /\
   ~ (player1_id r = AI /\ player2_id r = AI)).
Proof.
  unfold validate, seen_recently.
  rewrite !app_nil, !errors_of_nil.
  unfold creator_exists.
  rewrite assert_player_exists_valid, !player_valid_iff, validate_time_valid,
    board_active_iff, two_ai_players_valid.
  tauto.
Qed.

Lemma errors_of_elem (v : V unit) (e : ValidationError) :
  e ∈ errors_of v <-> v = Invalid e.
Proof.
  destruct v as [[]|e']; simpl.
  - rewrite elem_of_nil. split; [tauto | discriminate].
  - rewrite list_elem_of_singleton. split; intros H; inversion H; reflexivity.
Qed.

Lemma assert_player_exists_invalid (auth : Auth) (player : string)
    (e : ValidationError) :
  assert_player_exists auth player = Invalid e <->
  e = UserDoesntExist /\ player ∉ auth.
Proof.
  unfold assert_player_exists, require.
  case_bool_decide as Hin; split.
  - discriminate.
  - intros [_ Hno]. contradiction.
  - intros H. inversion H. auto.
  - intros [-> _]. reflexivity.
Qed.

Lemma validate_time_invalid_iff (value : Z) (e : ValidationError) :
  validate_time value = Invalid e <-> e = NegativeTime /\ (value < 0)%Z.
Proof.
  unfold validate_time. case_bool_decide as Hneg; split.
  - intros H. inversion H. auto.
  - intros [-> _]. reflexivity.
  - discriminate.
  - intros [_ H]. contradiction.
Qed.

Lemma two_ai_players_invalid_iff (db : DB) (auth : Auth) (now : Q) (r : request)
    (e : ValidationError) :
  two_ai_players (validated_data TIMEOUT db auth now r) = Invalid e <->
  e = TwoAISlots /\ player1_id r = AI /\ player2_id r = AI.
Proof.
  pose proof (two_ai_players_invalid TIMEOUT db auth now r) as Hinv.
  destruct (two_ai_players_cases (validated_data TIMEOUT db auth now r))
    as [H | H]; rewrite H in *.
  - split; [discriminate|]. intros [_ Hboth]. apply Hinv in Hboth. discriminate.
  - split.
    + intros He. inversion He. split; [reflexivity | by apply Hinv].
    + intros [-> _]. reflexivity.
Qed.

Lemma board_invalid_iff (db : DB) (now : Q) (value : string) (e : ValidationError) :
  board_exists_and_is_active TIMEOUT db now value = Invalid e <->
  (e = ControllerNeverRegistered /\ controllers db !! value = None) \/
  (e = ControllerNotActive /\
   exists c : Controller,
     controllers db !! value = Some c /\
     (TIMEOUT <= now - last_seen_or_0 c)%Q).
Proof.
  unfold board_exists_and_is_active.
  destruct (controllers db !! value) as [c|] eqn:Hc.
  - destruct (Qle_bool TIMEOUT (now - last_seen_or_0 c)) eqn:Hle.
    + apply Qle_bool_iff in Hle. split.
      * intros H. inversion H. right. eauto.
      * intros [[_ H] | [-> _]]; [discriminate | reflexivity].
    + split; [discriminate|].
      intros [[_ H] | [_ (c' & Hc' & Hle')]]; [discriminate|].
      inversion Hc'; subst. apply Qle_bool_iff in Hle'. congruence.
  - split.
    + intros H. inversion H. auto.
    + intros [[-> _] | [_ (c & Hc' & _)]]; [reflexivity | discriminate].
Qed.

(** X12: the checks of a create request report on their own: the
    messages about the time, the controller and the two AI slots are among
    those of a load exactly when their own check fails, whatever the other
    checks give, and a creator unknown to the identity provider is always
    reported. *)
Theorem create_messages (db : DB) (auth : Auth) (now : Q) (r : request) :
  (creator_id r ∉ auth -> UserDoesntExist ∈ validate TIMEOUT db auth now r) /\
  (NegativeTime ∈ validate TIMEOUT db auth now r <->
   (time_per_player r < 0)%Z) /\
  (ControllerNeverRegistered ∈ validate TIMEOUT db auth now r <->
   controllers db !! board_id r = None) /\
  (ControllerNotActive ∈ validate TIMEOUT db auth now r <->
   exists c : Controller,
     controllers db !! board_id r = Some c /\
     (TIMEOUT <= now - last_seen_or_0 c)%Q) /\
  (TwoAISlots ∈ validate TIMEOUT db auth now r <->
   player1_id r = AI /\ player2_id r = AI).
Proof.
  unfold validate, creator_exists.
  rewrite !elem_of_app, !errors_of_elem.
  rewrite !assert_player_exists_invalid, !validate_time_invalid_iff,
    !board_invalid_iff, !two_ai_players_invalid_iff.
  assert (forall (value : string) (e : ValidationError),
            player_valid auth value = Invalid e -> e = UserDoesntExist) as Hpv.
  { intros value e H. by apply identity_step_invalid in H as [-> _]. }
  repeat split; intros;
    repeat match goal with
      | H : _ \/ _ |- _ => destruct H
      | H : _ /\ _ |- _ => destruct H
      | H : player_valid _ _ = Invalid _ |- _ => apply Hpv in H
      end;
    try discriminate; try contradiction; auto 10.
Qed.

(** X13: a controller that has timed out stays timed out: if the board
    check raises the not-active message at some time, it raises it at
    every later time for the same store. *)
Theorem timed_out_controller_stays_out (db : DB) (now now' : Q) (value : string) :
  (now <= now')%Q ->
  board_exists_and_is_active TIMEOUT db now value = Invalid ControllerNotActive ->
  board_exists_and_is_active TIMEOUT db now' value = Invalid ControllerNotActive.
Proof.
  intros Hlater H.
  apply board_invalid_iff in H as [[H _] | [_ (c & Hc & Hle)]]; [discriminate|].
  apply board_invalid_iff. right. split; [reflexivity|].
  exists c. split; [exact Hc|]. lra.
Qed.

(** X14: the board check does not clamp the age of a record: with a
    positive [TIMEOUT], a controller whose [last_seen] is the time of the
    request or lies ahead of it is active. *)
Theorem controller_seen_now_or_later_is_active (db : DB) (now t : Q)
    (value : string) (c : Controller) :
  (0 < TIMEOUT)%Q ->
  controllers db !! value = Some c ->
  last_seen c = Some t ->
  (now <= t)%Q ->
  board_exists_and_is_active TIMEOUT db now value = Valid ().
Proof.
  intros Hpos Hc Hseen Hle.
  apply board_active_iff. exists c. split; [exact Hc|].
  unfold last_seen_or_0. rewrite Hseen. simpl. lra.
Qed.

End MoreCreateValidation.

(** X13, at a concrete store: the controller of the tests, last seen at
    1000, with a timeout of thirty seconds, at 1030 and at 2000. *)
Lemma timed_out_controller_stays_out_witness :
  CreateGameInput.board_exists_and_is_active 30%Q Examples.mock_db 2000%Q "kevin"
  = Invalid ControllerNotActive.
Proof.
  apply (timed_out_controller_stays_out 30%Q Examples.mock_db 1030%Q 2000%Q).
  - vm_compute. discriminate.
  - reflexivity.
Defined.

(** X14, at a concrete store: the controller of the tests, asked about at
    the time it was last seen. *)
Lemma controller_seen_now_or_later_is_active_witness :
  CreateGameInput.board_exists_and_is_active 30%Q Examples.mock_db 1000%Q "kevin"
  = Valid ().
Proof.
  apply (controller_seen_now_or_later_is_active 30%Q Examples.mock_db 1000%Q
           1000%Q "kevin" Examples.kevin).
  - reflexivity.
  - reflexivity.
  - reflexivity.
  - vm_compute. discriminate.
Defined.

(** X11, at a concrete request: a known creator and player against the
    AI, untimed, on the controller of the tests seen ten seconds ago. *)
Lemma create_validate_nil_witness :
  CreateGameInput.validate 30%Q Examples.mock_db Examples.mock_auth 1010%Q
    (CreateGameInput.mkRequest "some_creator" "some_player_1" AI 0 "kevin" None)
  = [].
Proof.
  apply (proj1 (create_validate_nil 30%Q Examples.mock_db Examples.mock_auth
                  1010%Q
                  (CreateGameInput.mkRequest "some_creator" "some_player_1" AI 0
                     "kevin" None))).
  split; [vm_compute; reflexivity|].
  split; [right; right; vm_compute; reflexivity|].
  split; [right; left; reflexivity|].
  split; [simpl; lia|].
  split.
  - exists Examples.kevin. split; [reflexivity|]. vm_compute. reflexivity.
  - intros [H _]. discriminate.
Defined.

(** X12, at a concrete request: a creator the identity provider does not
    know. *)
Lemma create_messages_witness :
  UserDoesntExist ∈
    CreateGameInput.validate 30%Q Examples.mock_db Examples.mock_auth 1010%Q
      (CreateGameInput.mkRequest "nobody" "some_player_1" AI 0 "kevin" None).
Proof.
  apply (proj1 (create_messages 30%Q Examples.mock_db Examples.mock_auth 1010%Q
                  (CreateGameInput.mkRequest "nobody" "some_player_1" AI 0
                     "kevin" None))).
  vm_compute. discriminate.
Defined.
